(** * AdminMenu: the administration page of the restaurant menu

    A shallow embedding of [src/pages/AdminMenu.tsx].  The page is a React
    component whose handlers are [async] functions talking to a hosted
    backend.  Each handler is embedded as a program of a small free monad
    [Prog] whose nodes are the effects the source performs: React state
    setters, toasts, navigation, local storage, the confirmation dialog,
    awaited backend calls, un-awaited calls of other async functions and
    the realtime channel.  Two interpreters give the programs meaning:
    [exec] runs one turn of the event loop (up to the first [await]) and
    [run] runs an invocation to completion against a backend oracle. *)

From stdpp Require Import base strings list gmap.

Set Default Proof Using "Type".

(** ** Data model *)

(** [{ en: string, es: string }] *)
Record LocaleText := { en : string; es : string }.

(** [MenuItem] (imported by the page from [@/data/menuData]); the fields
    are those of the literal records the page builds. *)
Record MenuItem := {
  id : string;
  name : LocaleText;
  description : LocaleText;
  price : string;
  category : string;
  isPopular : bool;
  isVegetarian : bool;
  ingredients : list string;
  image : string
}.

(** [Partial<MenuItem>]: every field optional, [None] for an absent key. *)
Record Partial := {
  p_id : option string;
  p_name : option LocaleText;
  p_description : option LocaleText;
  p_price : option string;
  p_category : option string;
  p_isPopular : option bool;
  p_isVegetarian : option bool;
  p_ingredients : option (list string);
  p_image : option string
}.

(** [{ ...item, ...updates }] *)
Definition spread (item : MenuItem) (updates : Partial) : MenuItem :=
  {| id := default (id item) (p_id updates);
     name := default (name item) (p_name updates);
     description := default (description item) (p_description updates);
     price := default (price item) (p_price updates);
     category := default (category item) (p_category updates);
     isPopular := default (isPopular item) (p_isPopular updates);
     isVegetarian := default (isVegetarian item) (p_isVegetarian updates);
     ingredients := default (ingredients item) (p_ingredients updates);
     image := default (image item) (p_image updates) |}.

(** The value caught by [catch (error: any)]; only [error.message] is read. *)
Record Error := { message : string }.

Module Toast.
Inductive Variant := Default | Destructive.
(** The argument of [toast({ variant, title, description })]; a toast
    without [variant] is the default, informational one. *)
Record t := { variant : Variant; title : string; description : string }.
End Toast.

(** ** The backend client *)

(** The calls the page awaits. *)
Inductive Request :=
| Select (table : string)
    (* supabase.from(table).select('*') *)
| Update (table : string) (updates : Partial) (row : string)
    (* supabase.from(table).update(updates).eq('id', row) *)
| Delete (table : string) (row : string)
    (* supabase.from(table).delete().eq('id', row) *)
| IsAuthenticated
    (* isAuthenticated() *)
| AuthSignOut.
    (* supabase.auth.signOut() *)

(** [{ data, error }] as the client resolves it; [None] is [null]. *)
Record Response := { data : option (list MenuItem); error : option Error }.

Definition Reply (r : Request) : Type :=
  match r with
  | IsAuthenticated => bool
  | _ => Response
  end.

(** How an awaited promise settles. *)
Inductive Settled (A : Type) :=
| Fulfilled (v : A)
| Rejected (e : Error).
Arguments Fulfilled {A} v.
Arguments Rejected {A} e.

(** Realtime channel: the filter given to [.on('postgres_changes', ...)]
    and the change events the backend delivers. *)
Record Filter := { f_event : string; f_schema : string; f_table : string }.

Inductive EventType := INSERT | UPDATE | DELETE.

Record Payload := {
  eventType : EventType;
  schema : string;
  table : string
}.

Definition Channel := nat.

(** ** Synchronous effects *)

Inductive Op :=
| SetItems (v : list MenuItem)
| SetLoading (v : bool)
| SetSelectedItem (v : option MenuItem)
| SetIsEditing (v : bool)
| ShowToast (t : Toast.t)
| Navigate (to : string)
| GetItem (key : string)
| RemoveItem (key : string)
| ConsoleError (label : string)
| ConsoleLog (label : string)
| Confirm (question : string)
| RemoveChannel (c : Channel).

Definition Ans (op : Op) : Type :=
  match op with
  | GetItem _ => option string
  | Confirm _ => bool
  | _ => unit
  end.

(** ** Programs *)

Inductive Prog (A : Type) : Type :=
| Ret (a : A)
| Throw (e : Error)
| Act (op : Op) (k : Ans op -> Prog A)
| Await (r : Request) (k : Settled (Reply r) -> Prog A)
| Spawn (p : Prog unit) (k : Prog A)
| Subscribe (topic : string) (f : Filter) (cb : Payload -> Prog unit)
            (k : Channel -> Prog A).
Arguments Ret {A} a.
Arguments Throw {A} e.
Arguments Act {A} op k.
Arguments Await {A} r k.
Arguments Spawn {A} p k.
Arguments Subscribe {A} topic f cb k.

Fixpoint bind {A B : Type} (p : Prog A) (f : A -> Prog B) : Prog B :=
  match p with
  | Ret a => f a
  | Throw e => Throw e
  | Act op k => Act op (fun x => bind (k x) f)
  | Await r k => Await r (fun s => bind (k s) f)
  | Spawn q k => Spawn q (bind k f)
  | Subscribe n fl cb k => Subscribe n fl cb (fun c => bind (k c) f)
  end.

#[global] Instance Prog_ret : MRet Prog := @Ret.
#[global] Instance Prog_bind : MBind Prog := fun A B f p => bind p f.

(** [try { p } catch (error) { h error }]; a rejection of an un-awaited
    call is not caught by the caller. *)
Fixpoint try_catch {A : Type} (p : Prog A) (h : Error -> Prog A) : Prog A :=
  match p with
  | Ret a => Ret a
  | Throw e => h e
  | Act op k => Act op (fun x => try_catch (k x) h)
  | Await r k => Await r (fun s => try_catch (k s) h)
  | Spawn q k => Spawn q (try_catch k h)
  | Subscribe n fl cb k => Subscribe n fl cb (fun c => try_catch (k c) h)
  end.

(** [try { p } finally { f }] *)
Fixpoint finally {A : Type} (p : Prog A) (f : Prog unit) : Prog A :=
  match p with
  | Ret a => bind f (fun _ => Ret a)
  | Throw e => bind f (fun _ => Throw e)
  | Act op k => Act op (fun x => finally (k x) f)
  | Await r k => Await r (fun s => finally (k s) f)
  | Spawn q k => Spawn q (finally k f)
  | Subscribe n fl cb k => Subscribe n fl cb (fun c => finally (k c) f)
  end.

(** Statement-level constructors, one per effect of the source. *)
Definition setItems (v : list MenuItem) : Prog unit := Act (SetItems v) Ret.
Definition setLoading (v : bool) : Prog unit := Act (SetLoading v) Ret.
Definition setSelectedItem (v : option MenuItem) : Prog unit :=
  Act (SetSelectedItem v) Ret.
Definition setIsEditing (v : bool) : Prog unit := Act (SetIsEditing v) Ret.
Definition toast (t : Toast.t) : Prog unit := Act (ShowToast t) Ret.
Definition navigate (to : string) : Prog unit := Act (Navigate to) Ret.
Definition getItem (key : string) : Prog (option string) := Act (GetItem key) Ret.
Definition removeItem (key : string) : Prog unit := Act (RemoveItem key) Ret.
Definition console_error (label : string) : Prog unit := Act (ConsoleError label) Ret.
Definition console_log (label : string) : Prog unit := Act (ConsoleLog label) Ret.
Definition confirm (question : string) : Prog bool := Act (Confirm question) Ret.
Definition removeChannel (c : Channel) : Prog unit := Act (RemoveChannel c) Ret.

(** [await r]: the value of a fulfilled promise, a throw for a rejected one. *)
Definition await (r : Request) : Prog (Reply r) :=
  Await r (fun s => match s with Fulfilled v => Ret v | Rejected e => Throw e end).

(** [p()] without [await]: the callee runs up to its first [await]. *)
Definition spawn (p : Prog unit) : Prog unit := Spawn p (Ret tt).

Definition subscribe (topic : string) (f : Filter) (cb : Payload -> Prog unit)
  : Prog Channel := Subscribe topic f cb Ret.

(** [try { p } catch (error) { h error } finally { f }] *)
Definition try_catch_finally {A : Type} (p : Prog A) (h : Error -> Prog A)
    (f : Prog unit) : Prog A :=
  finally (try_catch p h) f.

(** ** The page and its surroundings *)

(** Everything the handlers read or write.  A state setter stores the
    value the next render will show; a handler that reads [items] reads
    the value of the render it was created in, which is why the mutation
    handlers below take that collection as an argument. *)
Record World := {
  (* useState *)
  items : list MenuItem;
  loading : bool;
  selectedItem : option MenuItem;
  isEditing : bool;
  (* window.localStorage *)
  localStorage : gmap string string;
  (* what the page did to its surroundings, oldest first *)
  toasts : list Toast.t;
  navigations : list string;
  console : list string;
  requests : list Request
}.

(** A suspended async function: the request it awaits and what it does
    once the promise settles. *)
Record Task := { req : Request; cont : Settled (Reply req) -> Prog unit }.

(** A channel the realtime client holds open. *)
Record Listener := {
  handle : Channel;
  l_topic : string;
  l_filter : Filter;
  callback : Payload -> Prog unit
}.

Record Runtime := {
  world : World;
  pending : list Task;
  listeners : list Listener;
  nextChannel : Channel
}.

Definition on_world (f : World -> World) (rt : Runtime) : Runtime :=
  {| world := f (world rt); pending := pending rt;
     listeners := listeners rt; nextChannel := nextChannel rt |}.

Definition set_items v (w : World) : World :=
  {| items := v; loading := loading w; selectedItem := selectedItem w;
     isEditing := isEditing w; localStorage := localStorage w;
     toasts := toasts w; navigations := navigations w;
     console := console w; requests := requests w |}.
Definition set_loading v (w : World) : World :=
  {| items := items w; loading := v; selectedItem := selectedItem w;
     isEditing := isEditing w; localStorage := localStorage w;
     toasts := toasts w; navigations := navigations w;
     console := console w; requests := requests w |}.
Definition set_selectedItem v (w : World) : World :=
  {| items := items w; loading := loading w; selectedItem := v;
     isEditing := isEditing w; localStorage := localStorage w;
     toasts := toasts w; navigations := navigations w;
     console := console w; requests := requests w |}.
Definition set_isEditing v (w : World) : World :=
  {| items := items w; loading := loading w; selectedItem := selectedItem w;
     isEditing := v; localStorage := localStorage w;
     toasts := toasts w; navigations := navigations w;
     console := console w; requests := requests w |}.
Definition set_localStorage v (w : World) : World :=
  {| items := items w; loading := loading w; selectedItem := selectedItem w;
     isEditing := isEditing w; localStorage := v;
     toasts := toasts w; navigations := navigations w;
     console := console w; requests := requests w |}.
Definition add_toast t (w : World) : World :=
  {| items := items w; loading := loading w; selectedItem := selectedItem w;
     isEditing := isEditing w; localStorage := localStorage w;
     toasts := toasts w ++ [t]; navigations := navigations w;
     console := console w; requests := requests w |}.
Definition add_navigation to (w : World) : World :=
  {| items := items w; loading := loading w; selectedItem := selectedItem w;
     isEditing := isEditing w; localStorage := localStorage w;
     toasts := toasts w; navigations := navigations w ++ [to];
     console := console w; requests := requests w |}.
Definition add_console label (w : World) : World :=
  {| items := items w; loading := loading w; selectedItem := selectedItem w;
     isEditing := isEditing w; localStorage := localStorage w;
     toasts := toasts w; navigations := navigations w;
     console := console w ++ [label]; requests := requests w |}.
Definition add_request r (w : World) : World :=
  {| items := items w; loading := loading w; selectedItem := selectedItem w;
     isEditing := isEditing w; localStorage := localStorage w;
     toasts := toasts w; navigations := navigations w;
     console := console w; requests := requests w ++ [r] |}.

Definition park (t : Task) (rt : Runtime) : Runtime :=
  {| world := world rt; pending := pending rt ++ [t];
     listeners := listeners rt; nextChannel := nextChannel rt |}.

(** Modelled from the spec: the realtime client, which the page only
    calls.  "Change-event channel: given a table scope, delivers an event
    for every insert/update/delete; must be explicitly unsubscribed."
    [open_channel] is [.channel(topic).on(...).subscribe()],
    [close_channel] is [supabase.removeChannel(c)]. *)
Definition open_channel (topic : string) (f : Filter)
    (cb : Payload -> Prog unit) (rt : Runtime) : Channel * Runtime :=
  (nextChannel rt,
   {| world := world rt; pending := pending rt;
      listeners := listeners rt ++
        [{| handle := nextChannel rt; l_topic := topic; l_filter := f;
            callback := cb |}];
      nextChannel := S (nextChannel rt) |}).

Definition close_channel (c : Channel) (rt : Runtime) : Runtime :=
  {| world := world rt; pending := pending rt;
     listeners := filter (fun l => handle l ≠ c) (listeners rt);
     nextChannel := nextChannel rt |}.

Section Semantics.
(** How the user answers [window.confirm] during the turn. *)
Variable user : string -> bool.

Definition perform (op : Op) (rt : Runtime) : Ans op * Runtime :=
  match op return Ans op * Runtime with
  | SetItems v => (tt, on_world (set_items v) rt)
  | SetLoading v => (tt, on_world (set_loading v) rt)
  | SetSelectedItem v => (tt, on_world (set_selectedItem v) rt)
  | SetIsEditing v => (tt, on_world (set_isEditing v) rt)
  | ShowToast t => (tt, on_world (add_toast t) rt)
  | Navigate to => (tt, on_world (add_navigation to) rt)
  | GetItem key => (localStorage (world rt) !! key, rt)
  | RemoveItem key =>
      (tt, on_world (fun w => set_localStorage (delete key (localStorage w)) w) rt)
  | ConsoleError label => (tt, on_world (add_console label) rt)
  | ConsoleLog label => (tt, on_world (add_console label) rt)
  | Confirm question => (user question, rt)
  | RemoveChannel c => (tt, close_channel c rt)
  end.

(** Where a turn of the event loop leaves the function it was running. *)
Inductive Outcome (A : Type) :=
| Returned (a : A)
| Threw (e : Error)
| Suspended (r : Request) (k : Settled (Reply r) -> Prog A).
Arguments Returned {A} a.
Arguments Threw {A} e.
Arguments Suspended {A} r k.

(** What the caller of an un-awaited async function is left with: the
    callee parked on its request, or nothing (a rejection nobody
    awaits is dropped). *)
Definition detach (o : Runtime * Outcome unit) : Runtime :=
  match o with
  | (rt, Suspended r k) => park {| req := r; cont := k |} rt
  | (rt, _) => rt
  end.

(** One turn: run [p] until it returns, throws or reaches an [await]. *)
Fixpoint exec {A : Type} (p : Prog A) (rt : Runtime) : Runtime * Outcome A :=
  match p with
  | Ret a => (rt, Returned a)
  | Throw e => (rt, Threw e)
  | Act op k => let '(x, rt') := perform op rt in exec (k x) rt'
  | Await r k => (on_world (add_request r) rt, Suspended r k)
  | Spawn q k => exec k (detach (exec q rt))
  | Subscribe n fl cb k =>
      let '(c, rt') := open_channel n fl cb rt in exec (k c) rt'
  end.

(** Calling an async function from the event loop. *)
Definition call (p : Prog unit) (rt : Runtime) : Runtime :=
  detach (exec p rt).

(** A whole invocation: every [await] of [p] itself is settled at once
    by [backend]; the async functions [p] calls without [await] stay
    parked on their first request. *)
Variable backend : forall r : Request, Settled (Reply r).

Fixpoint run {A : Type} (p : Prog A) (rt : Runtime) : Runtime :=
  match p with
  | Ret _ => rt
  | Throw _ => rt
  | Act op k => let '(x, rt') := perform op rt in run (k x) rt'
  | Await r k => run (k (backend r)) (on_world (add_request r) rt)
  | Spawn q k => run k (call q rt)
  | Subscribe n fl cb k =>
      let '(c, rt') := open_channel n fl cb rt in run (k c) rt'
  end.
End Semantics.
Arguments Returned {A} a.
Arguments Threw {A} e.
Arguments Suspended {A} r k.

(** ** The component *)

(** [v === 'true'] for the result of [localStorage.getItem]. *)
Definition is_true (v : option string) : bool := bool_decide (v = Some "true").

(** [data || []] *)
Definition or_empty (data : option (list MenuItem)) : list MenuItem :=
  match data with
  | Some rows => rows
  | None => []
  end.

Definition mockData : list MenuItem :=
  [ {| id := "1";
       name := {| en := "Lomo Saltado"; es := "Lomo Saltado" |};
       description :=
         {| en := "Stir-fried beef with onions, tomatoes and french fries";
            es := "Carne de res salteada con cebollas, tomates y papas fritas" |};
       price := "$15.99";
       category := "mainDish";
       isPopular := true;
       isVegetarian := false;
       ingredients := ["beef"; "onions"; "tomatoes"; "soy sauce"; "french fries"];
       image := "/placeholder.svg" |};
    {| id := "2";
       name := {| en := "Ceviche"; es := "Ceviche" |};
       description :=
         {| en := "Fresh fish cured in citrus juices with onions and chili peppers";
            es := "Pescado fresco curado en jugos cítricos con cebollas y ajíes" |};
       price := "$14.99";
       category := "coldDishes";
       isPopular := true;
       isVegetarian := false;
       ingredients := ["fish"; "lime juice"; "onions"; "cilantro"; "chili peppers"];
       image := "/placeholder.svg" |} ].

Definition checkAuth : Prog unit :=
  try_catch
    (authenticated ← await IsAuthenticated;
     v ← getItem "dev_admin_authenticated";
     let devAuthenticated := is_true v in
     if negb authenticated && negb devAuthenticated then
       toast {| Toast.variant := Toast.Destructive;
                Toast.title := "Sesión no válida";
                Toast.description :=
                  "Por favor, inicie sesión para acceder al panel de administración" |};;
       navigate "/admin"
     else Ret tt)
    (fun error =>
       console_error "Error checking authentication:";;
       v ← getItem "dev_admin_authenticated";
       let devAuthenticated := is_true v in
       if negb devAuthenticated then navigate "/admin" else Ret tt).

Definition fetchMenuItems : Prog unit :=
  try_catch_finally
    (setLoading true;;
     r ← await (Select "menu_items");
     match error r with
     | Some err =>
         console_error "Supabase fetch error:";;
         v ← getItem "dev_admin_authenticated";
         if is_true v then
           setItems mockData;;
           toast {| Toast.variant := Toast.Default;
                    Toast.title := "Modo de desarrollo";
                    Toast.description := "Usando datos de muestra para desarrollo" |}
         else Ret tt
     | None => setItems (or_empty (data r))
     end)
    (fun error =>
       console_error "Error fetching menu items:";;
       toast {| Toast.variant := Toast.Destructive;
                Toast.title := "Error al cargar elementos del menú";
                Toast.description := message error |};;
       v ← getItem "dev_admin_authenticated";
       if is_true v then setItems [] else Ret tt)
    (setLoading false).

(** The mutation handlers are closures of one render: [items] is the
    collection that render displayed. *)
Section Handlers.
Variable items : list MenuItem.

Definition handleUpdateItem (id' : string) (updates : Partial) : Prog unit :=
  try_catch_finally
    (setLoading true;;
     r ← await (Update "menu_items" updates id');
     match error r with
     | Some err =>
         console_error "Supabase update error:";;
         v ← getItem "dev_admin_authenticated";
         if is_true v then
           setItems ((fun item =>
                        if decide (id item = id') then spread item updates
                        else item) <$> items)
         else Throw err
     | None => Ret tt
     end;;
     toast {| Toast.variant := Toast.Default;
              Toast.title := "Éxito";
              Toast.description := "Elemento del menú actualizado correctamente" |};;
     spawn fetchMenuItems;;
     setIsEditing false;;
     setSelectedItem None)
    (fun error =>
       toast {| Toast.variant := Toast.Destructive;
                Toast.title := "Error al actualizar el elemento del menú";
                Toast.description := message error |})
    (setLoading false).

Definition handleDeleteItem (id' : string) : Prog unit :=
  ok ← confirm "¿Estás seguro de que deseas eliminar este elemento?";
  if negb ok then Ret tt else
  try_catch_finally
    (setLoading true;;
     r ← await (Delete "menu_items" id');
     match error r with
     | Some err =>
         console_error "Supabase delete error:";;
         v ← getItem "dev_admin_authenticated";
         if is_true v then
           setItems (filter (fun item => id item ≠ id') items)
         else Throw err
     | None => Ret tt
     end;;
     toast {| Toast.variant := Toast.Default;
              Toast.title := "Éxito";
              Toast.description := "Elemento del menú eliminado correctamente" |};;
     spawn fetchMenuItems)
    (fun error =>
       toast {| Toast.variant := Toast.Destructive;
                Toast.title := "Error al eliminar el elemento del menú";
                Toast.description := message error |})
    (setLoading false).
End Handlers.

Definition sessionClosed : Toast.t :=
  {| Toast.variant := Toast.Default;
     Toast.title := "Sesión cerrada";
     Toast.description := "Ha cerrado sesión correctamente" |}.

Definition signOut : Prog unit :=
  try_catch
    (r ← await AuthSignOut;
     match error r with
     | Some err => Throw err
     | None => Ret tt
     end;;
     removeItem "dev_admin_authenticated";;
     toast sessionClosed;;
     navigate "/admin")
    (fun error =>
       console_error "Sign out error:";;
       removeItem "dev_admin_authenticated";;
       toast sessionClosed;;
       navigate "/admin").

Definition menu_changes : Filter :=
  {| f_event := "*"; f_schema := "public"; f_table := "menu_items" |}.

(** The callback given to [.on('postgres_changes', ...)]. *)
Definition on_change (payload : Payload) : Prog unit :=
  console_log "Real-time update:";;
  spawn fetchMenuItems.

(** The body of [useEffect(..., [])]; its result is the cleanup React
    keeps for the unmount. *)
Definition effect : Prog (Prog unit) :=
  spawn checkAuth;;
  spawn fetchMenuItems;;
  subscription ← subscribe "menu_changes" menu_changes on_change;
  Ret (removeChannel subscription).

(** ** The page in the event loop *)

(** Does a change event pass the filter of a subscription? *)
Definition event_name (e : EventType) : string :=
  match e with
  | INSERT => "INSERT"
  | UPDATE => "UPDATE"
  | DELETE => "DELETE"
  end.

Definition passes (f : Filter) (payload : Payload) : bool :=
  (String.eqb (f_event f) "*" || String.eqb (f_event f) (event_name (eventType payload)))
  && String.eqb (f_schema f) (schema payload)
  && String.eqb (f_table f) (table payload).

Section Page.
Variable user : string -> bool.

(** The first render: [useState] initial values. *)
Definition initial (storage : gmap string string) : Runtime :=
  {| world := {| items := []; loading := true; selectedItem := None;
                 isEditing := false; localStorage := storage;
                 toasts := []; navigations := []; console := [];
                 requests := [] |};
     pending := []; listeners := []; nextChannel := 0 |}.

(** React runs the effect once after the first render. *)
Definition mount (rt : Runtime) : Runtime * Outcome (Prog unit) :=
  exec user effect rt.

(** React runs the cleanup the effect returned. *)
Definition unmount (cleanup : Prog unit) (rt : Runtime) : Runtime :=
  call user cleanup rt.

(** Modelled from the spec: the realtime client hands a change event
    to the callback of every channel it holds open whose filter the
    event passes. *)
Definition deliver (payload : Payload) (rt : Runtime) : Runtime :=
  fold_left
    (fun rt' l =>
       if passes (l_filter l) payload then call user (callback l payload) rt'
       else rt')
    (listeners rt) rt.

(** The promise of a parked task settles: the task leaves [pending] and
    its continuation runs one turn. *)
Definition settle (t : Task) (s : Settled (Reply (req t))) (rest : list Task)
    (rt : Runtime) : Runtime :=
  call user (cont t s)
    {| world := world rt; pending := rest;
       listeners := listeners rt; nextChannel := nextChannel rt |}.
End Page.

(** ** Reading the development flag, and running against a backend *)

Abbreviation Backend := (forall r : Request, Settled (Reply r)).

(** [localStorage.getItem('dev_admin_authenticated') === 'true'] *)
Definition dev_flag (w : World) : bool :=
  is_true (localStorage w !! "dev_admin_authenticated").

(** The oldest request in flight settles the way [backend] says. *)
Definition settle_next (user : string -> bool) (backend : Backend)
    (rt : Runtime) : Runtime :=
  match pending rt with
  | t :: rest => settle user t (backend (req t)) rest rt
  | [] => rt
  end.

(** ** Scenarios *)

Definition accept : string -> bool := fun _ => true.
Definition decline : string -> bool := fun _ => false.

(** Local storage with the development flag set. *)
Definition dev_storage : gmap string string :=
  {[ "dev_admin_authenticated" := "true" ]}.

(** A backend that serves [rows] and accepts every write. *)
Definition backend_ok (rows : list MenuItem) : Backend :=
  fun r =>
    match r with
    | IsAuthenticated => Fulfilled true
    | Select _ => Fulfilled {| data := Some rows; error := None |}
    | _ => Fulfilled {| data := None; error := None |}
    end.

(** A backend that answers every call with [{ data: null, error: e }]
    and knows no session. *)
Definition backend_error (e : Error) : Backend :=
  fun r =>
    match r with
    | IsAuthenticated => Fulfilled false
    | _ => Fulfilled {| data := None; error := Some e |}
    end.

(** A backend whose every promise rejects with [e]. *)
Definition backend_down (e : Error) : Backend := fun r => Rejected e.

(** [{ price: p }] *)
Definition price_only (p : string) : Partial :=
  {| p_id := None; p_name := None; p_description := None;
     p_price := Some p; p_category := None; p_isPopular := None;
     p_isVegetarian := None; p_ingredients := None; p_image := None |}.

(** A page that shows [rows] with no load in flight. *)
Definition showing (storage : gmap string string) (rows : list MenuItem)
  : Runtime :=
  on_world (fun w => set_loading false (set_items rows w)) (initial storage).

Definition permission_denied : Error := {| message := "permission denied" |}.
Definition failed_to_fetch : Error := {| message := "Failed to fetch" |}.

Definition menu_insert : Payload :=
  {| eventType := INSERT; schema := "public"; table := "menu_items" |}.

(** The page is mounted with a session, its first load brings the two
    sample rows, and then a change event starts a reload that is still in
    flight: the grid is on screen and [loading] is [true]. *)
Definition reloading : Runtime :=
  let rt1 := fst (mount accept (initial ∅)) in
  let rt2 := settle_next accept (backend_ok mockData) rt1 in
  let rt3 := settle_next accept (backend_ok mockData) rt2 in
  deliver accept menu_insert rt3.

(** The toasts of the three handlers. *)
Definition load_error_toast (e : Error) : Toast.t :=
  {| Toast.variant := Toast.Destructive;
     Toast.title := "Error al cargar elementos del menú";
     Toast.description := message e |}.

Definition dev_mode_toast : Toast.t :=
  {| Toast.variant := Toast.Default;
     Toast.title := "Modo de desarrollo";
     Toast.description := "Usando datos de muestra para desarrollo" |}.

Definition update_success_toast : Toast.t :=
  {| Toast.variant := Toast.Default;
     Toast.title := "Éxito";
     Toast.description := "Elemento del menú actualizado correctamente" |}.

Definition update_error_toast (e : Error) : Toast.t :=
  {| Toast.variant := Toast.Destructive;
     Toast.title := "Error al actualizar el elemento del menú";
     Toast.description := message e |}.

Definition invalid_session_toast : Toast.t :=
  {| Toast.variant := Toast.Destructive;
     Toast.title := "Sesión no válida";
     Toast.description :=
       "Por favor, inicie sesión para acceder al panel de administración" |}.

Definition confirm_question : string :=
  "¿Estás seguro de que deseas eliminar este elemento?".

Definition delete_success_toast : Toast.t :=
  {| Toast.variant := Toast.Default;
     Toast.title := "Éxito";
     Toast.description := "Elemento del menú eliminado correctamente" |}.

Definition delete_error_toast (e : Error) : Toast.t :=
  {| Toast.variant := Toast.Destructive;
     Toast.title := "Error al eliminar el elemento del menú";
     Toast.description := message e |}.

Definition coming_soon_toast : Toast.t :=
  {| Toast.variant := Toast.Default;
     Toast.title := "Próximamente";
     Toast.description := "Funcionalidad en desarrollo" |}.

(** ** Presentation *)

(** What a card of the grid prints of its record: the React key, the
    English name, the category, the price and the English description. *)
Record Card := {
  card_key : string;
  card_name : string;
  card_category : string;
  card_price : string;
  card_description : string
}.

Definition card (item : MenuItem) : Card :=
  {| card_key := id item;
     card_name := en (name item);
     card_category := category item;
     card_price := price item;
     card_description := en (description item) |}.

(** The part of the page under the title: the message for an empty
    menu, or the grid. *)
Inductive Body :=
| EmptyState (text : string)
| Grid (cards : list Card).

(** What the component returns: the full-page spinner, or the panel with
    its body and, when [modal] holds, the edit modal over it. *)
Inductive View :=
| LoadingScreen (text : string)
| Panel (body : Body) (modal : bool).

(** [isEditing && selectedItem]: an object is truthy, [null] is not. *)
Definition truthy (v : option MenuItem) : bool :=
  match v with
  | Some _ => true
  | None => false
  end.

(** The [return] of the component, for the state of one render. *)
Definition render (w : World) : View :=
  if loading w && Nat.eqb (length (items w)) 0 then
    LoadingScreen "Cargando elementos del menú..."
  else
    Panel
      (if Nat.eqb (length (items w)) 0 then
         EmptyState "No hay elementos en el menú. ¡Añade algunos!"
       else Grid (card <$> items w))
      (isEditing w && truthy (selectedItem w)).

(** The [onClick] of "Añadir Elemento". *)
Definition addItem_onClick : Prog unit := toast coming_soon_toast.

(** The [onClick] of "Editar" on the card of [item]. *)
Definition edit_onClick (item : MenuItem) : Prog unit :=
  setSelectedItem (Some item);;
  setIsEditing true.

(** The [onClick] of "Eliminar" on the card of [item], in the render
    that showed [shown]. *)
Definition delete_onClick (shown : list MenuItem) (item : MenuItem) : Prog unit :=
  spawn (handleDeleteItem shown (id item)).

(** The [onClick] of "Cancelar" in the modal. *)
Definition cancel_onClick : Prog unit :=
  setIsEditing false;;
  setSelectedItem None.

(** The [onClick] of "Guardar" in the modal. *)
Definition save_onClick : Prog unit :=
  setIsEditing false;;
  setSelectedItem None.

(** The handles of the open channels are below the next one to give. *)
Definition fresh (rt : Runtime) : Prop :=
  Forall (fun l => handle l < nextChannel rt) (listeners rt).

(** The runtime with [rest] as the requests in flight. *)
Definition with_pending (rest : list Task) (rt : Runtime) : Runtime :=
  {| world := world rt; pending := rest;
     listeners := listeners rt; nextChannel := nextChannel rt |}.

(** [{}] *)
Definition no_updates : Partial :=
  {| p_id := None; p_name := None; p_description := None;
     p_price := None; p_category := None; p_isPopular := None;
     p_isVegetarian := None; p_ingredients := None; p_image := None |}.

(** A backend that accepts the writes and fails the read. *)
Definition backend_write_only (e : Error) : Backend :=
  fun r =>
    match r with
    | IsAuthenticated => Fulfilled true
    | Select _ => Fulfilled {| data := None; error := Some e |}
    | _ => Fulfilled {| data := None; error := None |}
    end.

(** A record with the given id and price and nothing else filled in. *)
Definition plain_item (i p : string) : MenuItem :=
  {| id := i; name := {| en := ""; es := "" |};
     description := {| en := ""; es := "" |}; price := p; category := "";
     isPopular := false; isVegetarian := false; ingredients := [];
     image := "" |}.

(** Symbolic execution of one invocation: unfold the interpreter, use
    what is known of the backend's answer and of the flag. *)
Ltac known :=
  match goal with
  | H : _ = _ |- _ => progress (rewrite H)
  end.

Ltac invoke := unfold dev_flag in *; cbn; repeat (known; cbn).

(** ** The interpreters agree *)

(** [run] is [exec] followed, at each [await] of the invocation, by the
    settlement the backend gives and the next turn. *)
Lemma run_exec user (backend : Backend) {A} (p : Prog A) rt :
  run user backend p rt =
  match exec user p rt with
  | (rt', Suspended r k) => run user backend (k (backend r)) rt'
  | (rt', _) => rt'
  end.
Proof.
  revert rt.
  induction p as [A a|A e|A op k IH|A r k IH|A q _ k IH|A n fl cb _ k IH];
    intros rt; cbn; try reflexivity; try apply IH.
  destruct (perform user op rt) as [x rt']. apply IH.
Qed.

Lemma dev_flag_true w :
  dev_flag w = true <-> localStorage w !! "dev_admin_authenticated" = Some "true".
Proof. unfold dev_flag, is_true. apply bool_decide_eq_true. Qed.

(** ** The menu list loader *)

Section Loader.
Variable user : string -> bool.
Variable backend : Backend.
Variable rt : Runtime.

Let w' := world (run user backend fetchMenuItems rt).

(** The backend answers with an error and the flag is not set: nothing
    but the console and the loading flag changes. *)
Lemma load_error_without_flag d e :
  backend (Select "menu_items") = Fulfilled {| data := d; error := Some e |} ->
  dev_flag (world rt) = false ->
  items w' = items (world rt) /\ toasts w' = toasts (world rt).
Proof. intros Hb Hd. subst w'. invoke. auto. Qed.

(** The promise rejects and the flag is not set: the collection stays
    and the error toast carries the message. *)
Lemma load_rejected_without_flag e :
  backend (Select "menu_items") = Rejected e ->
  dev_flag (world rt) = false ->
  items w' = items (world rt) /\
  toasts w' = toasts (world rt) ++ [load_error_toast e].
Proof. intros Hb Hd. subst w'. invoke. auto. Qed.

(** The backend answers with an error and the flag is set: the sample
    dataset and the informational toast. *)
Lemma load_error_with_flag d e :
  backend (Select "menu_items") = Fulfilled {| data := d; error := Some e |} ->
  dev_flag (world rt) = true ->
  items w' = mockData /\
  length (items w') = 2 /\
  map id (items w') = ["1"; "2"] /\
  toasts w' = toasts (world rt) ++ [dev_mode_toast].
Proof. intros Hb Hd. subst w'. invoke. auto. Qed.

(** The promise rejects and the flag is set: the collection is emptied
    and the toast is the error one. *)
Lemma load_rejected_with_flag e :
  backend (Select "menu_items") = Rejected e ->
  dev_flag (world rt) = true ->
  items w' = [] /\
  toasts w' = toasts (world rt) ++ [load_error_toast e].
Proof. intros Hb Hd. subst w'. invoke. auto. Qed.

(** C3: when the backend read succeeds, the collection after the load
    is the list of rows the backend returned, as returned (same rows,
    same order); a [null] or empty result gives the empty collection. *)
Theorem load_success_replaces_items d :
  backend (Select "menu_items") = Fulfilled {| data := d; error := None |} ->
  (forall rows, d = Some rows -> items w' = rows) /\
  (d = None \/ d = Some [] -> items w' = []).
Proof.
  intros Hb. subst w'. invoke. split.
  - intros rows ->. reflexivity.
  - intros [-> | ->]; reflexivity.
Qed.
End Loader.

Lemma load_success_replaces_items_witness :
  items (world (run accept (backend_ok mockData) fetchMenuItems (initial ∅)))
  = mockData.
Proof.
  apply (proj1 (load_success_replaces_items accept (backend_ok mockData)
                  (initial ∅) (Some mockData) eq_refl)).
  reflexivity.
Defined.

(** C1 (failing input): the page shows the two sample rows, the flag is
    not set, and the backend answers the read with
    [{ data: null, error: { message: "permission denied" } }].  The
    collection stays as it was, and no toast at all is shown. *)
Theorem silent_load_error_without_flag :
  let rt := showing ∅ mockData in
  let w' := world (run accept (backend_error permission_denied) fetchMenuItems rt) in
  dev_flag (world rt) = false /\
  items w' = mockData /\
  toasts w' = [].
Proof. vm_compute. auto. Qed.

(** C2 (failing input): the flag is set and the promise of the backend
    read rejects with "Failed to fetch".  The collection becomes empty,
    not the sample dataset, and the only toast is the destructive one. *)
Theorem rejected_load_with_flag_empties_items :
  let rt := showing dev_storage mockData in
  let w' := world (run accept (backend_down failed_to_fetch) fetchMenuItems rt) in
  dev_flag (world rt) = true /\
  items w' = [] /\
  toasts w' = [load_error_toast failed_to_fetch].
Proof. vm_compute. auto. Qed.

(** ** The update handler *)

Section Update.
Variable user : string -> bool.
Variable backend : Backend.
Variable rt : Runtime.
(** The collection of the render whose handler is invoked. *)
Variable shown : list MenuItem.
Variable id' : string.
Variable updates : Partial.

Let rt' := run user backend (handleUpdateItem shown id' updates) rt.
Let w' := world rt'.

(** C4: the backend answers the update with an error and the flag is
    set.  The collection becomes the rendered one with the partial
    update spread over every record carrying that id, position by
    position, the other records untouched, and the success toast is
    shown: the answer of the backend is not needed for it.  Applied
    means, key by key: a key the update carries has the update's value in
    the stored record, a key it does not carry keeps the value of the
    rendered record.  For id "1" and [{ price: "$16.99" }] the record
    with id "1" then carries that price. *)
Theorem update_simulated_with_flag d e :
  backend (Update "menu_items" updates id')
    = Fulfilled {| data := d; error := Some e |} ->
  dev_flag (world rt) = true ->
  items w' = (fun item => if decide (id item = id') then spread item updates
                          else item) <$> shown /\
  (forall i item, shown !! i = Some item -> id item = id' ->
     items w' !! i = Some (spread item updates)) /\
  (forall i item, shown !! i = Some item -> id item = id' ->
     exists item',
       items w' !! i = Some item' /\
       match p_id updates with
       | Some v => id item' = v | None => id item' = id item end /\
       match p_name updates with
       | Some v => name item' = v | None => name item' = name item end /\
       match p_description updates with
       | Some v => description item' = v
       | None => description item' = description item end /\
       match p_price updates with
       | Some v => price item' = v | None => price item' = price item end /\
       match p_category updates with
       | Some v => category item' = v
       | None => category item' = category item end /\
       match p_isPopular updates with
       | Some v => isPopular item' = v
       | None => isPopular item' = isPopular item end /\
       match p_isVegetarian updates with
       | Some v => isVegetarian item' = v
       | None => isVegetarian item' = isVegetarian item end /\
       match p_ingredients updates with
       | Some v => ingredients item' = v
       | None => ingredients item' = ingredients item end /\
       match p_image updates with
       | Some v => image item' = v | None => image item' = image item end) /\
  (forall i item, shown !! i = Some item -> id item <> id' ->
     items w' !! i = Some item) /\
  toasts w' = toasts (world rt) ++ [update_success_toast] /\
  (id' = "1" -> updates = price_only "$16.99" ->
   forall i item, shown !! i = Some item -> id item = "1" ->
     exists item', items w' !! i = Some item' /\
                   id item' = "1" /\ price item' = "$16.99").
Proof.
  intros Hb Hd. subst w' rt'. invoke.
  assert (Hat : forall i item, shown !! i = Some item ->
            ((fun item => if decide (id item = id') then spread item updates
                          else item) <$> shown) !! i
            = Some (if decide (id item = id') then spread item updates else item)).
  { intros i item Hi. rewrite list_lookup_fmap, Hi. reflexivity. }
  split; [reflexivity |].
  split; [| split; [| split; [| split; [reflexivity |]]]].
  - intros i item Hi Hid. rewrite (Hat i item Hi).
    destruct (decide (id item = id')); [reflexivity | contradiction].
  - intros i item Hi Hid. exists (spread item updates).
    rewrite (Hat i item Hi).
    destruct (decide (id item = id')); [| contradiction].
    split; [reflexivity |]. cbn.
    repeat split;
      match goal with
      | |- match ?o with _ => _ end => destruct o; reflexivity
      end.
  - intros i item Hi Hid. rewrite (Hat i item Hi).
    destruct (decide (id item = id')); [contradiction | reflexivity].
  - intros -> -> i item Hi Hid. exists (spread item (price_only "$16.99")).
    rewrite (Hat i item Hi).
    destruct (decide (id item = "1")); [| contradiction].
    repeat split. exact Hid.
Qed.

(** C5: when the error is propagated (the backend answers with an error
    and the flag is not set, or the promise rejects) the error toast
    with the message is shown and [isEditing] and [selectedItem] keep
    their values; on the paths that do not throw (no error, or an error
    with the flag set) the success toast is shown, the loader is called
    again (its request is sent and it is left in flight exactly as by a
    call of the loader), [isEditing] is [false] and [selectedItem] is
    [null]. *)
Theorem update_outcomes :
  (forall d e,
     backend (Update "menu_items" updates id')
       = Fulfilled {| data := d; error := Some e |} ->
     dev_flag (world rt) = false ->
     toasts w' = toasts (world rt) ++ [update_error_toast e] /\
     isEditing w' = isEditing (world rt) /\
     selectedItem w' = selectedItem (world rt)) /\
  (forall e,
     backend (Update "menu_items" updates id') = Rejected e ->
     toasts w' = toasts (world rt) ++ [update_error_toast e] /\
     isEditing w' = isEditing (world rt) /\
     selectedItem w' = selectedItem (world rt)) /\
  (forall d,
     backend (Update "menu_items" updates id')
       = Fulfilled {| data := d; error := None |} \/
     (exists e, backend (Update "menu_items" updates id')
                  = Fulfilled {| data := d; error := Some e |} /\
                dev_flag (world rt) = true) ->
     toasts w' = toasts (world rt) ++ [update_success_toast] /\
     requests w' = requests (world rt) ++
                     [Update "menu_items" updates id'; Select "menu_items"] /\
     pending rt' = pending (call user fetchMenuItems rt) /\
     isEditing w' = false /\
     selectedItem w' = None).
Proof.
  subst w' rt'. split; [| split].
  - intros d e Hb Hd. invoke. auto.
  - intros e Hb. invoke. auto.
  - intros d [Hb | (e & Hb & Hd)]; invoke; rewrite <- app_assoc; auto.
Qed.
End Update.

Lemma update_simulated_with_flag_witness :
  exists item',
    items (world (run accept (backend_error permission_denied)
                    (handleUpdateItem mockData "1" (price_only "$16.99"))
                    (showing dev_storage mockData))) !! 0 = Some item' /\
    id item' = "1" /\ price item' = "$16.99".
Proof.
  refine (proj2 (proj2 (proj2 (proj2 (proj2
    (update_simulated_with_flag accept (backend_error permission_denied)
       (showing dev_storage mockData) mockData "1" (price_only "$16.99")
       None permission_denied eq_refl _))))) eq_refl eq_refl 0 _ eq_refl eq_refl).
  vm_compute. reflexivity.
Defined.

(** What follows a simulated update: the loader the handler called is
    still in flight, and when the backend fails it too, it puts the
    sample dataset back. *)
Example simulated_update_then_reload :
  let rt1 := run accept (backend_error permission_denied)
               (handleUpdateItem mockData "1" (price_only "$16.99"))
               (showing dev_storage mockData) in
  let rt2 := settle_next accept (backend_error permission_denied) rt1 in
  price <$> items (world rt1) = ["$16.99"; "$14.99"] /\
  length (pending rt1) = 1 /\
  price <$> items (world rt2) = ["$15.99"; "$14.99"].
Proof. vm_compute. auto. Qed.

Lemma update_outcomes_witness :
  isEditing (world (run accept (backend_ok mockData)
                      (handleUpdateItem mockData "1" (price_only "$16.99"))
                      (on_world (set_isEditing true) (showing ∅ mockData))))
  = false /\
  isEditing (world (run accept (backend_error permission_denied)
                      (handleUpdateItem mockData "1" (price_only "$16.99"))
                      (on_world (set_isEditing true) (showing ∅ mockData))))
  = true /\
  isEditing (world (run accept (backend_down failed_to_fetch)
                      (handleUpdateItem mockData "1" (price_only "$16.99"))
                      (on_world (set_isEditing true) (showing ∅ mockData))))
  = true.
Proof.
  split; [| split].
  - apply (proj2 (proj2 (update_outcomes accept (backend_ok mockData)
             (on_world (set_isEditing true) (showing ∅ mockData))
             mockData "1" (price_only "$16.99"))) None).
    left. reflexivity.
  - apply (proj1 (update_outcomes accept (backend_error permission_denied)
             (on_world (set_isEditing true) (showing ∅ mockData))
             mockData "1" (price_only "$16.99")) None permission_denied eq_refl).
    vm_compute. reflexivity.
  - apply (proj1 (proj2 (update_outcomes accept (backend_down failed_to_fetch)
             (on_world (set_isEditing true) (showing ∅ mockData))
             mockData "1" (price_only "$16.99"))) failed_to_fetch eq_refl).
Defined.

(** ** The delete handler *)

Section Delete.
Variable user : string -> bool.
Variable backend : Backend.
Variable rt : Runtime.
Variable shown : list MenuItem.
Variable id' : string.

(** C6: the first thing the handler does is ask for confirmation, and
    when the user declines it returns at once: the whole runtime (the
    component state, local storage, toasts, navigation, the requests
    sent to the backend and those in flight) is what it was. *)
Theorem delete_declined_is_noop :
  user confirm_question = false ->
  (exists k, handleDeleteItem shown id' = Act (Confirm confirm_question) k) /\
  exec user (handleDeleteItem shown id') rt = (rt, Returned tt) /\
  run user backend (handleDeleteItem shown id') rt = rt.
Proof.
  intros Hno. split; [eexists; reflexivity |].
  unfold confirm_question in Hno. cbn. rewrite Hno. cbn. auto.
Qed.

(** Once the user accepts, the delete goes to the backend. *)
Lemma delete_accepted_calls_backend :
  user confirm_question = true ->
  exists rest,
    requests (world (run user backend (handleDeleteItem shown id') rt))
    = requests (world rt) ++ Delete "menu_items" id' :: rest.
Proof.
  intros Hyes. unfold confirm_question in Hyes. cbn. rewrite Hyes. cbn.
  destruct (backend (Delete "menu_items" id')) as [[d [e|]]|e]; cbn.
  - destruct (is_true _); cbn.
    + exists [Select "menu_items"]. rewrite <- app_assoc. reflexivity.
    + exists []. reflexivity.
  - exists [Select "menu_items"]. rewrite <- app_assoc. reflexivity.
  - exists []. reflexivity.
Qed.
End Delete.

Lemma delete_declined_is_noop_witness :
  run decline (backend_ok mockData) (handleDeleteItem mockData "2")
    (showing ∅ mockData)
  = showing ∅ mockData.
Proof.
  apply (delete_declined_is_noop decline (backend_ok mockData)
           (showing ∅ mockData) mockData "2" eq_refl).
Defined.

(** ** Sign-out *)


(** ** The session guard *)

Section Guard.
Variable user : string -> bool.
Variable backend : Backend.
Variable rt : Runtime.

Let w' := world (run user backend checkAuth rt).

End Guard.


(** ** The change subscriber *)

Section Subscriber.
Variable user : string -> bool.
Variable rt : Runtime.

Let c := nextChannel rt.
Let mounted := fst (mount user rt).
Let subscription : Listener :=
  {| handle := c; l_topic := "menu_changes"; l_filter := menu_changes;
     callback := on_change |}.

(** C9: a mount on a page with no channel open opens exactly one, on
    the table "menu_items", and returns the cleanup that removes that
    very channel.  While it is the open channel, every insert, update or
    delete event of the table runs the callback, which calls the loader
    whatever the event says.  The cleanup releases that one channel, and
    with no channel open an event changes nothing: no reload. *)
Theorem one_subscription_per_mount :
  listeners rt = [] ->
  mount user rt = (mounted, Returned (removeChannel c)) /\
  listeners mounted = [subscription] /\
  (forall rt1 payload,
     listeners rt1 = listeners mounted ->
     schema payload = "public" -> table payload = "menu_items" ->
     deliver user payload rt1 = call user (on_change payload) rt1 /\
     requests (world (deliver user payload rt1))
       = requests (world rt1) ++ [Select "menu_items"] /\
     pending (deliver user payload rt1) = pending (call user fetchMenuItems rt1)) /\
  (forall rt1,
     listeners rt1 = listeners mounted ->
     let rt2 := unmount user (removeChannel c) rt1 in
     listeners rt2 = [] /\
     length (listeners rt1) = S (length (listeners rt2)) /\
     world rt2 = world rt1 /\
     forall rt3 payload,
       listeners rt3 = listeners rt2 -> deliver user payload rt3 = rt3).
Proof.
  intros Hnone.
  assert (Hm : listeners mounted = [subscription]).
  { subst mounted. cbn. rewrite Hnone. reflexivity. }
  split; [reflexivity |]. split; [exact Hm |]. split.
  - intros rt1 payload Hl Hs Ht. rewrite Hm in Hl.
    assert (Hd : deliver user payload rt1 = call user (on_change payload) rt1).
    { unfold deliver. rewrite Hl. cbn [fold_left subscription l_filter callback].
      unfold passes. rewrite Hs, Ht. reflexivity. }
    rewrite Hd. repeat split.
  - intros rt1 Hl rt2. rewrite Hm in Hl.
    assert (Hgone : listeners rt2 = []).
    { subst rt2. cbn. rewrite Hl. cbn. case_decide; [contradiction | reflexivity]. }
    split; [exact Hgone |]. split; [rewrite Hl, Hgone; reflexivity |].
    split; [reflexivity |].
    intros rt3 payload Hl3. unfold deliver. rewrite Hl3, Hgone. reflexivity.
Qed.
End Subscriber.

Lemma one_subscription_per_mount_witness :
  length (listeners (fst (mount accept (initial ∅)))) = 1 /\
  listeners (unmount accept (removeChannel 0) (fst (mount accept (initial ∅)))) = [].
Proof.
  pose proof (one_subscription_per_mount accept (initial ∅) eq_refl)
    as (_ & Hone & _ & Hoff).
  split.
  - rewrite Hone. reflexivity.
  - apply (Hoff (fst (mount accept (initial ∅))) eq_refl).
Defined.

(** ** The loading flag *)

(** C10 (as stated, fails): a reload is in flight, so [loading] is
    [true] while the grid is on screen; the user presses delete on the
    record "2" and declines.  The handler has returned and [loading] is
    still [true]. *)
Lemma declined_delete_leaves_loading :
  let rt' := run decline (backend_ok mockData)
               (handleDeleteItem (items (world reloading)) "2") reloading in
  items (world reloading) = mockData /\
  loading (world reloading) = true /\
  loading (world rt') = true /\
  loading (world rt') <> false.
Proof. vm_compute. repeat split. discriminate. Qed.

(** C10 (amended): every invocation of the loader and of the update
    handler, and every invocation of the delete handler whose
    confirmation is accepted, ends with [loading] set to [false],
    whatever the backend answered and whatever the flag. *)
Theorem loading_reset_by_finally
    (user : string -> bool) (backend : Backend) (rt : Runtime) :
  loading (world (run user backend fetchMenuItems rt)) = false /\
  (forall shown id' updates,
     loading (world (run user backend (handleUpdateItem shown id' updates) rt))
     = false) /\
  (forall shown id',
     user confirm_question = true ->
     loading (world (run user backend (handleDeleteItem shown id') rt)) = false).
Proof.
  split; [| split].
  - cbn. destruct (backend (Select "menu_items")) as [[d [e|]]|e]; cbn;
      repeat case_match; reflexivity.
  - intros shown id' updates. cbn.
    destruct (backend (Update "menu_items" updates id')) as [[d [e|]]|e]; cbn;
      repeat case_match; reflexivity.
  - intros shown id' Hyes. unfold confirm_question in Hyes. cbn.
    rewrite Hyes. cbn.
    destruct (backend (Delete "menu_items" id')) as [[d [e|]]|e]; cbn;
      repeat case_match; reflexivity.
Qed.

Lemma loading_reset_by_finally_witness :
  loading (world (run accept (backend_error permission_denied)
                    (handleDeleteItem mockData "2") reloading)) = false.
Proof.
  apply (proj2 (proj2 (loading_reset_by_finally accept
                         (backend_error permission_denied) reloading))
           mockData "2" eq_refl).
Defined.


(** * Further properties of the page *)

(** ** The delete handler, once confirmed *)

Section DeleteConfirmed.
Variable user : string -> bool.
Variable backend : Backend.
Variable rt : Runtime.
Variable shown : list MenuItem.
Variable id' : string.

Let rt' := run user backend (handleDeleteItem shown id') rt.
Let w' := world rt'.

(** X1: a confirmed delete that the backend accepts shows the success
    toast and calls the loader; the handler itself leaves the collection
    and the modal state alone, the row disappears with the reload. *)
Theorem delete_accepted_by_backend d :
  user confirm_question = true ->
  backend (Delete "menu_items" id') = Fulfilled {| data := d; error := None |} ->
  toasts w' = toasts (world rt) ++ [delete_success_toast] /\
  requests w' = requests (world rt) ++
                  [Delete "menu_items" id'; Select "menu_items"] /\
  pending rt' = pending (call user fetchMenuItems rt) /\
  items w' = items (world rt) /\
  isEditing w' = isEditing (world rt) /\
  selectedItem w' = selectedItem (world rt).
Proof.
  unfold confirm_question. intros Hyes Hb. subst w' rt'. invoke.
  rewrite <- app_assoc. auto 10.
Qed.

(** X2: a confirmed delete that the backend refuses while the flag is
    set removes from the rendered collection every record with that id
    and nothing else: the other records stay, in their order, and ids
    that were unique stay unique.  It is reported as a success and the
    loader is called. *)
Theorem delete_simulated_with_flag d e :
  user confirm_question = true ->
  backend (Delete "menu_items" id') = Fulfilled {| data := d; error := Some e |} ->
  dev_flag (world rt) = true ->
  items w' = filter (fun item => id item ≠ id') shown /\
  (forall item, item ∈ items w' <-> item ∈ shown /\ id item <> id') /\
  (id' ∉ id <$> items w') /\
  items w' `sublist_of` shown /\
  (NoDup (id <$> shown) -> NoDup (id <$> items w')) /\
  toasts w' = toasts (world rt) ++ [delete_success_toast] /\
  pending rt' = pending (call user fetchMenuItems rt).
Proof.
  unfold confirm_question. intros Hyes Hb Hd. subst w' rt'. invoke.
  split; [reflexivity |]. split; [| split; [| split; [| split]]].
  - intros item. rewrite list_elem_of_filter. tauto.
  - intros Hin. apply list_elem_of_fmap in Hin as (item & -> & Hitem).
    apply list_elem_of_filter in Hitem as [Hne _]. apply Hne. reflexivity.
  - apply sublist_filter.
  - intros Hnd. apply (sublist_NoDup _ (id <$> shown));
      first [exact Hnd | apply fmap_sublist, sublist_filter].
  - auto.
Qed.

(** X3: a confirmed delete whose error is propagated (an error without
    the flag, or a rejected promise) shows the error toast with the
    message, leaves the collection as it was and does not call the
    loader: the delete is the only request and nothing stays in flight. *)
Theorem delete_error_propagated :
  user confirm_question = true ->
  (forall d e,
     backend (Delete "menu_items" id')
       = Fulfilled {| data := d; error := Some e |} ->
     dev_flag (world rt) = false ->
     toasts w' = toasts (world rt) ++ [delete_error_toast e] /\
     items w' = items (world rt) /\
     requests w' = requests (world rt) ++ [Delete "menu_items" id'] /\
     pending rt' = pending rt) /\
  (forall e,
     backend (Delete "menu_items" id') = Rejected e ->
     toasts w' = toasts (world rt) ++ [delete_error_toast e] /\
     items w' = items (world rt) /\
     requests w' = requests (world rt) ++ [Delete "menu_items" id'] /\
     pending rt' = pending rt).
Proof.
  unfold confirm_question. intros Hyes. subst w' rt'. split.
  - intros d e Hb Hd. invoke. auto.
  - intros e Hb. invoke. auto.
Qed.
End DeleteConfirmed.

Lemma delete_accepted_by_backend_witness :
  requests (world (run accept (backend_ok mockData)
                     (handleDeleteItem mockData "2") (showing ∅ mockData)))
  = [Delete "menu_items" "2"; Select "menu_items"].
Proof.
  apply (delete_accepted_by_backend accept (backend_ok mockData)
           (showing ∅ mockData) mockData "2" None eq_refl eq_refl).
Defined.

Lemma delete_simulated_with_flag_witness :
  id <$> items (world (run accept (backend_error permission_denied)
                         (handleDeleteItem mockData "2")
                         (showing dev_storage mockData)))
  = ["1"].
Proof.
  rewrite (proj1 (delete_simulated_with_flag accept
                    (backend_error permission_denied)
                    (showing dev_storage mockData) mockData "2"
                    None permission_denied eq_refl eq_refl eq_refl)).
  reflexivity.
Defined.

Lemma delete_error_propagated_witness :
  toasts (world (run accept (backend_down failed_to_fetch)
                   (handleDeleteItem mockData "2") (showing ∅ mockData)))
  = [delete_error_toast failed_to_fetch].
Proof.
  apply (proj2 (delete_error_propagated accept (backend_down failed_to_fetch)
                  (showing ∅ mockData) mockData "2" eq_refl)
           failed_to_fetch eq_refl).
Defined.

(** ** Simulated mutations and the rendered collection *)

Section Simulated.
Variable user : string -> bool.
Variable backend : Backend.
Variable rt : Runtime.
Variable shown : list MenuItem.
Variable id' : string.
Variable updates : Partial.

Let updated := world (run user backend (handleUpdateItem shown id' updates) rt).
Let deleted := world (run user backend (handleDeleteItem shown id') rt).

Lemma spread_no_updates item : spread item no_updates = item.
Proof. destruct item. reflexivity. Qed.

(** X4: a simulated update keeps the number of records; when the partial
    update carries no id (or the id it targets) it keeps the list of ids,
    so ids that were unique stay unique; and the empty update changes no
    record. *)
Theorem update_simulated_keeps_ids d e :
  backend (Update "menu_items" updates id')
    = Fulfilled {| data := d; error := Some e |} ->
  dev_flag (world rt) = true ->
  length (items updated) = length shown /\
  (p_id updates = None \/ p_id updates = Some id' ->
     id <$> items updated = id <$> shown /\
     (NoDup (id <$> shown) -> NoDup (id <$> items updated))) /\
  (updates = no_updates -> items updated = shown).
Proof.
  intros Hb Hd. subst updated. invoke. split; [| split].
  - apply length_fmap.
  - intros Hid.
    assert (Hids : id <$> ((fun item => if decide (id item = id')
                                        then spread item updates else item)
                           <$> shown) = id <$> shown).
    { rewrite <- list_fmap_compose. apply list_fmap_ext. intros i item _. cbn.
      destruct (decide (id item = id')) as [Heq |]; [| reflexivity].
      cbn. destruct Hid as [-> | ->]; cbn; congruence. }
    rewrite Hids. auto.
  - intros ->. rewrite <- (list_fmap_id shown) at 2.
    apply list_fmap_ext. intros i item _.
    destruct (decide (id item = id')); [apply spread_no_updates | reflexivity].
Qed.

(** X5: when no rendered record carries the id, the simulated update and
    the simulated delete both store the rendered collection unchanged, and
    still report a success. *)
Theorem simulated_mutation_of_missing_id :
  id' ∉ id <$> shown ->
  dev_flag (world rt) = true ->
  (forall d e,
     backend (Update "menu_items" updates id')
       = Fulfilled {| data := d; error := Some e |} ->
     items updated = shown /\
     toasts updated = toasts (world rt) ++ [update_success_toast]) /\
  (forall d e,
     user confirm_question = true ->
     backend (Delete "menu_items" id')
       = Fulfilled {| data := d; error := Some e |} ->
     items deleted = shown /\
     toasts deleted = toasts (world rt) ++ [delete_success_toast]).
Proof.
  intros Hmiss Hd.
  assert (Hne : forall item, item ∈ shown -> id item <> id').
  { intros item Hin Heq. apply Hmiss. rewrite <- Heq.
    apply list_elem_of_fmap_2. exact Hin. }
  subst updated deleted. split.
  - intros d e Hb. invoke. split; [| reflexivity].
    rewrite <- (list_fmap_id shown) at 2.
    apply list_fmap_ext. intros i item Hi.
    destruct (decide (id item = id')) as [Heq |]; [| reflexivity].
    exfalso. apply (Hne item); [| exact Heq].
    apply list_elem_of_lookup. eauto.
  - unfold confirm_question. intros d e Hyes Hb. invoke. split; [| reflexivity].
    induction shown as [| item l IH]; [reflexivity |].
    rewrite filter_cons_True.
    + f_equal. apply IH.
      * intros Hin. apply Hmiss. cbn. right. exact Hin.
      * intros x Hx. apply Hne. right. exact Hx.
    + apply Hne. left.
Qed.
End Simulated.

Lemma update_simulated_keeps_ids_witness :
  id <$> items (world (run accept (backend_error permission_denied)
                         (handleUpdateItem mockData "1" (price_only "$16.99"))
                         (showing dev_storage mockData)))
  = ["1"; "2"].
Proof.
  apply (proj1 (proj2 (update_simulated_keeps_ids accept
                         (backend_error permission_denied)
                         (showing dev_storage mockData) mockData "1"
                         (price_only "$16.99") None permission_denied
                         eq_refl eq_refl))).
  left. reflexivity.
Defined.

Lemma simulated_mutation_of_missing_id_witness :
  items (world (run accept (backend_error permission_denied)
                  (handleDeleteItem mockData "7")
                  (showing dev_storage mockData)))
  = mockData.
Proof.
  assert (Hmiss : "7" ∉ id <$> mockData).
  { cbn. intros Hin. repeat (apply elem_of_cons in Hin as [Hin | Hin];
                             [discriminate Hin |]).
    apply elem_of_nil in Hin. exact Hin. }
  apply (proj2 (simulated_mutation_of_missing_id accept
                  (backend_error permission_denied)
                  (showing dev_storage mockData) mockData "7" no_updates
                  Hmiss eq_refl)
           None permission_denied eq_refl eq_refl).
Defined.

(** ** A mutation and the reload it starts *)

Section Reconcile.
Variable user : string -> bool.
Variable backend : Backend.
Variable rt : Runtime.
Variable shown : list MenuItem.
Variable id' : string.
Variable updates : Partial.

Let after_update := run user backend (handleUpdateItem shown id' updates) rt.
Let after_delete := run user backend (handleDeleteItem shown id') rt.

(** X6: with nothing else in flight, a mutation the backend accepts
    leaves the collection as it was when the handler returns, and once
    the reload it started settles with the backend's rows the collection
    is those rows, [loading] is [false] and nothing is in flight. *)
Theorem accepted_mutation_then_reload d :
  pending rt = [] ->
  backend (Select "menu_items") = Fulfilled {| data := d; error := None |} ->
  (forall d',
     backend (Update "menu_items" updates id')
       = Fulfilled {| data := d'; error := None |} ->
     items (world after_update) = items (world rt) /\
     items (world (settle_next user backend after_update)) = or_empty d /\
     loading (world (settle_next user backend after_update)) = false /\
     pending (settle_next user backend after_update) = []) /\
  (forall d',
     user confirm_question = true ->
     backend (Delete "menu_items" id')
       = Fulfilled {| data := d'; error := None |} ->
     items (world after_delete) = items (world rt) /\
     items (world (settle_next user backend after_delete)) = or_empty d /\
     loading (world (settle_next user backend after_delete)) = false /\
     pending (settle_next user backend after_delete) = []).
Proof.
  intros Hp Hsel. subst after_update after_delete. split.
  - intros d' Hb. unfold settle_next. invoke. unfold settle, call. invoke. auto.
  - unfold confirm_question. intros d' Hyes Hb. unfold settle_next. invoke.
    unfold settle, call. invoke. auto.
Qed.

(** X7: with nothing else in flight, the flag set and a backend that
    fails both the mutation and the read, the simulated update or delete
    is replaced by the sample dataset as soon as the reload it started
    settles: the local change does not survive its own handler. *)
Theorem simulated_mutation_lost_on_reload d e :
  pending rt = [] ->
  dev_flag (world rt) = true ->
  backend (Select "menu_items") = Fulfilled {| data := d; error := Some e |} ->
  (forall d' e',
     backend (Update "menu_items" updates id')
       = Fulfilled {| data := d'; error := Some e' |} ->
     items (world (settle_next user backend after_update)) = mockData) /\
  (forall d' e',
     user confirm_question = true ->
     backend (Delete "menu_items" id')
       = Fulfilled {| data := d'; error := Some e' |} ->
     items (world (settle_next user backend after_delete)) = mockData).
Proof.
  intros Hp Hd Hsel. subst after_update after_delete. split.
  - intros d' e' Hb. unfold settle_next. invoke. unfold settle, call. invoke.
    reflexivity.
  - unfold confirm_question. intros d' e' Hyes Hb. unfold settle_next. invoke.
    unfold settle, call. invoke. reflexivity.
Qed.
End Reconcile.

Lemma accepted_mutation_then_reload_witness :
  id <$> items (world (settle_next accept (backend_ok (take 1 mockData))
                         (run accept (backend_ok (take 1 mockData))
                            (handleDeleteItem mockData "2")
                            (showing ∅ mockData))))
  = ["1"].
Proof.
  rewrite (proj1 (proj2 (proj2 (accepted_mutation_then_reload accept
             (backend_ok (take 1 mockData)) (showing ∅ mockData) mockData "2"
             no_updates (Some (take 1 mockData)) eq_refl eq_refl)
             None eq_refl eq_refl))).
  reflexivity.
Defined.

Lemma simulated_mutation_lost_on_reload_witness :
  items (world (settle_next accept (backend_error permission_denied)
                  (run accept (backend_error permission_denied)
                     (handleDeleteItem mockData "2")
                     (showing dev_storage mockData))))
  = mockData.
Proof.
  apply (proj2 (simulated_mutation_lost_on_reload accept
                  (backend_error permission_denied)
                  (showing dev_storage mockData) mockData "2" no_updates
                  None permission_denied eq_refl eq_refl eq_refl)
           None permission_denied eq_refl eq_refl).
Defined.

(** ** What the handlers leave alone *)

(** X8: whatever the backend answers and whatever the user answers, the
    loader and the two mutation handlers never write local storage, never
    navigate and never open or close a channel. *)
Theorem data_handlers_keep_storage_and_route
    (user : string -> bool) (backend : Backend) (rt : Runtime)
    (shown : list MenuItem) (id' : string) (updates : Partial) :
  let untouched rt' :=
    localStorage (world rt') = localStorage (world rt) /\
    navigations (world rt') = navigations (world rt) /\
    listeners rt' = listeners rt in
  untouched (run user backend fetchMenuItems rt) /\
  untouched (run user backend (handleUpdateItem shown id' updates) rt) /\
  untouched (run user backend (handleDeleteItem shown id') rt).
Proof.
  cbn. split; [| split].
  - destruct (backend (Select "menu_items")) as [[d [e|]]|e]; cbn;
      repeat case_match; auto.
  - destruct (backend (Update "menu_items" updates id')) as [[d [e|]]|e]; cbn;
      repeat case_match; auto.
  - destruct (user _); cbn; [| auto].
    destruct (backend (Delete "menu_items" id')) as [[d [e|]]|e]; cbn;
      repeat case_match; auto.
Qed.

(** X9: a load sends exactly one request, the read of "menu_items",
    leaves nothing of its own in flight, and never touches the edit
    modal, whatever the backend answers. *)
Theorem load_sends_one_request
    (user : string -> bool) (backend : Backend) (rt : Runtime) :
  let rt' := run user backend fetchMenuItems rt in
  requests (world rt') = requests (world rt) ++ [Select "menu_items"] /\
  pending rt' = pending rt /\
  isEditing (world rt') = isEditing (world rt) /\
  selectedItem (world rt') = selectedItem (world rt).
Proof.
  cbn. destruct (backend (Select "menu_items")) as [[d [e|]]|e]; cbn;
    repeat case_match; auto.
Qed.

(** ** Sign-out and the guard *)

(** X10: sign-out sends the one backend sign-out, removes no other key
    of local storage, leaves the collection, the loading flag and the
    modal as they are, and does not close the change channel. *)
Theorem signOut_touches_nothing_else
    (user : string -> bool) (backend : Backend) (rt : Runtime) :
  let rt' := run user backend signOut rt in
  requests (world rt') = requests (world rt) ++ [AuthSignOut] /\
  (forall key, key <> "dev_admin_authenticated" ->
     localStorage (world rt') !! key = localStorage (world rt) !! key) /\
  items (world rt') = items (world rt) /\
  loading (world rt') = loading (world rt) /\
  isEditing (world rt') = isEditing (world rt) /\
  selectedItem (world rt') = selectedItem (world rt) /\
  pending rt' = pending rt /\
  listeners rt' = listeners rt.
Proof.
  cbn. destruct (backend AuthSignOut) as [[d [e|]]|e]; cbn;
    (split; [reflexivity |]); (split; [| auto 10]);
    intros key Hkey; apply lookup_delete_ne; congruence.
Qed.

(** X11: after a sign-out the guard no longer finds the flag: unless the
    backend still reports a session, a guard run that follows redirects
    to "/admin", whether or not the flag was set before. *)
Theorem guard_after_signOut_redirects
    (user : string -> bool) (backend : Backend) (rt : Runtime) :
  backend IsAuthenticated = Fulfilled false \/
  (exists e, backend IsAuthenticated = Rejected e) ->
  navigations (world (run user backend checkAuth (run user backend signOut rt)))
  = navigations (world rt) ++ ["/admin"; "/admin"].
Proof.
  assert (Hgone : forall m : gmap string string,
            is_true (delete "dev_admin_authenticated" m !! "dev_admin_authenticated")
            = false).
  { intros m. rewrite lookup_delete_eq. reflexivity. }
  intros [Hb | [e Hb]]; cbn; rewrite Hb;
    destruct (backend AuthSignOut) as [[d [e'|]]|e']; cbn;
    rewrite Hgone; cbn; rewrite <- app_assoc; reflexivity.
Qed.

Lemma guard_after_signOut_redirects_witness :
  navigations (world (run accept (backend_error permission_denied) checkAuth
                        (run accept (backend_error permission_denied) signOut
                           (initial dev_storage))))
  = ["/admin"; "/admin"].
Proof.
  apply (guard_after_signOut_redirects accept (backend_error permission_denied)
           (initial dev_storage)).
  left. reflexivity.
Defined.

(** X12: the guard shows the "Sesión no válida" toast only when the
    backend check returned [false] and the flag is not set; when the check
    throws it redirects without any toast.  It never changes the
    collection, the loading flag or local storage. *)
Theorem checkAuth_toast_and_frame
    (user : string -> bool) (backend : Backend) (rt : Runtime) :
  let w' := world (run user backend checkAuth rt) in
  (backend IsAuthenticated = Fulfilled false -> dev_flag (world rt) = false ->
     toasts w' = toasts (world rt) ++ [invalid_session_toast]) /\
  (backend IsAuthenticated = Fulfilled true \/
   (exists e, backend IsAuthenticated = Rejected e) \/
   dev_flag (world rt) = true ->
     toasts w' = toasts (world rt)) /\
  items w' = items (world rt) /\
  loading w' = loading (world rt) /\
  localStorage w' = localStorage (world rt).
Proof.
  cbn. split; [| split].
  - intros Hb Hd. invoke. reflexivity.
  - intros [Hb | [[e Hb] | Hd]].
    + invoke. reflexivity.
    + invoke. repeat case_match; reflexivity.
    + unfold dev_flag in Hd.
      destruct (backend IsAuthenticated) as [[|]|e]; cbn; rewrite ?Hd;
        reflexivity.
  - destruct (backend IsAuthenticated) as [[|]|e]; cbn;
      repeat case_match; auto.
Qed.

Lemma checkAuth_toast_and_frame_witness :
  toasts (world (run accept (backend_error permission_denied) checkAuth
                   (initial ∅))) = [invalid_session_toast] /\
  toasts (world (run accept (backend_down failed_to_fetch) checkAuth
                   (initial ∅))) = [].
Proof.
  split.
  - apply (proj1 (checkAuth_toast_and_frame accept
                    (backend_error permission_denied) (initial ∅)));
      [reflexivity | vm_compute; reflexivity].
  - apply (proj1 (proj2 (checkAuth_toast_and_frame accept
                           (backend_down failed_to_fetch) (initial ∅)))).
    right. left. exists failed_to_fetch. reflexivity.
Defined.

(** ** The loader in the event loop *)

(** X13: calling the loader returns at once with [loading] set and the
    read in flight.  Whenever the answer arrives, and whatever the page
    has become in the meantime, the continuation resets [loading], leaves
    the other requests in flight as they are, and on success stores the
    rows of this answer: of two overlapping loads the one answered last
    decides the collection. *)
Theorem load_settles_on_any_runtime (user : string -> bool) (rt : Runtime) :
  exists t : Task,
    call user fetchMenuItems rt
      = park t (on_world (add_request (Select "menu_items"))
                  (on_world (set_loading true) rt)) /\
    req t = Select "menu_items" /\
    forall (backend : Backend) (rest : list Task) (rt1 : Runtime),
      let rt2 := settle user t (backend (req t)) rest rt1 in
      pending rt2 = rest /\
      loading (world rt2) = false /\
      (forall d,
         backend (Select "menu_items") = Fulfilled {| data := d; error := None |} ->
         items (world rt2) = or_empty d).
Proof.
  eexists. split; [reflexivity |]. split; [reflexivity |].
  intros backend rest rt1. unfold settle, call. cbn.
  destruct (backend (Select "menu_items")) as [[d [e|]]|e]; cbn.
  - repeat case_match; cbn; repeat split; intros d' Hd'; discriminate Hd'.
  - repeat split. intros d' Hd'. injection Hd' as ->. reflexivity.
  - repeat case_match; cbn; repeat split; intros d' Hd'; discriminate Hd'.
Qed.

Lemma load_settles_on_any_runtime_witness :
  exists t : Task,
    pending (call accept fetchMenuItems (initial ∅)) = [t] /\
    items (world (settle accept t (backend_ok mockData (req t)) []
                    (showing ∅ (take 1 mockData)))) = mockData.
Proof.
  destruct (load_settles_on_any_runtime accept (initial ∅))
    as (t & Hcall & Hreq & Hsettle).
  exists t. split.
  - rewrite Hcall. reflexivity.
  - apply (proj2 (proj2 (Hsettle (backend_ok mockData) []
                           (showing ∅ (take 1 mockData))))
             (Some mockData)).
    reflexivity.
Defined.

(** ** What is on screen *)

Section Screen.
Variable user : string -> bool.

(** X14: the full-page spinner is on screen exactly when [loading] is
    set and the collection is empty.  So in the turn that calls the
    loader the page keeps what it showed if it showed any record (the
    grid stays, card for card) and shows the spinner if it showed none.
    A load in flight does not by itself keep the spinner: of two
    overlapping loads on an empty page, once the first has settled with
    no rows its [finally] has reset [loading], and the page shows the
    empty-menu message while the second is still in flight. *)
Theorem view_while_loading (rt : Runtime) :
  let during := world (call user fetchMenuItems rt) in
  (items (world rt) <> [] ->
     render during = render (world rt) /\
     render during = Panel (Grid (card <$> items (world rt)))
                       (isEditing (world rt) && truthy (selectedItem (world rt)))) /\
  (items (world rt) = [] ->
     render during = LoadingScreen "Cargando elementos del menú...") /\
  (forall w text,
     render w = LoadingScreen text <->
     loading w = true /\ items w = [] /\
     text = "Cargando elementos del menú...") /\
  (forall (backend : Backend) d,
     pending rt = [] ->
     items (world rt) = [] ->
     backend (Select "menu_items") = Fulfilled {| data := d; error := None |} ->
     or_empty d = [] ->
     let rt2 := settle_next user backend
                  (call user fetchMenuItems (call user fetchMenuItems rt)) in
     length (pending rt2) = 1 /\
     loading (world rt2) = false /\
     render (world rt2)
       = Panel (EmptyState "No hay elementos en el menú. ¡Añade algunos!")
           (isEditing (world rt) && truthy (selectedItem (world rt)))).
Proof.
  cbn. split; [| split; [| split]].
  - unfold render. cbn. intros Hne.
    destruct (items (world rt)) as [| item l]; [contradiction |].
    cbn. rewrite andb_false_r. auto.
  - unfold render. cbn. intros ->. reflexivity.
  - intros w text. unfold render.
    destruct (loading w); destruct (items w) as [| item l]; cbn;
      (split;
       [ intros H; try discriminate H; injection H as <-; auto
       | intros (H1 & H2 & H3); try discriminate; subst; reflexivity ]).
  - intros backend d Hp Hnone Hb Hd.
    unfold settle_next, call. cbn. rewrite Hp. cbn.
    unfold settle, call. cbn. rewrite Hb. cbn.
    unfold render. cbn. rewrite Hd. cbn. auto.
Qed.

(** X15: once a load has completed the spinner is gone, whatever the
    backend answered; after a successful load the page shows one card per
    returned row, in the order of the rows, or the empty-menu message when
    there is none. *)
Theorem view_after_load (backend : Backend) (rt : Runtime) :
  let w' := world (run user backend fetchMenuItems rt) in
  let modal := isEditing (world rt) && truthy (selectedItem (world rt)) in
  (forall text, render w' <> LoadingScreen text) /\
  (forall d,
     backend (Select "menu_items") = Fulfilled {| data := d; error := None |} ->
     (or_empty d <> [] -> render w' = Panel (Grid (card <$> or_empty d)) modal) /\
     (or_empty d = [] ->
        render w' = Panel (EmptyState "No hay elementos en el menú. ¡Añade algunos!")
                      modal)).
Proof.
  intros w' modal. subst w' modal. split.
  - intros text. unfold render.
    assert (Hl : loading (world (run user backend fetchMenuItems rt)) = false).
    { cbn. destruct (backend (Select "menu_items")) as [[d [e|]]|e]; cbn;
        repeat case_match; reflexivity. }
    rewrite Hl. cbn. discriminate.
  - intros d Hb. invoke. unfold render. cbn. split.
    + intros Hne. destruct (or_empty d); [contradiction | reflexivity].
    + intros ->. reflexivity.
Qed.

(** X16: "Editar" selects the record and opens the modal; "Cancelar" and
    "Guardar" both close it, and neither sends anything to the backend nor
    changes the collection: what was edited is not saved.  From a page
    with the modal closed, opening and closing it gives back the page as
    it was. *)
Theorem modal_open_close (rt : Runtime) (item : MenuItem) :
  let opened := call user (edit_onClick item) rt in
  selectedItem (world opened) = Some item /\
  isEditing (world opened) = true /\
  (forall close, close = cancel_onClick \/ close = save_onClick ->
     let closed := call user close opened in
     isEditing (world closed) = false /\
     selectedItem (world closed) = None /\
     items (world closed) = items (world rt) /\
     requests (world closed) = requests (world rt) /\
     pending closed = pending rt /\
     (isEditing (world rt) = false -> selectedItem (world rt) = None ->
        closed = rt)).
Proof.
  cbn. split; [reflexivity |]. split; [reflexivity |].
  intros close [-> | ->]; cbn; repeat split;
    intros He Hs; destruct rt as [[] ? ? ?]; cbn in *; subst; reflexivity.
Qed.

(** "Añadir Elemento" only shows the "Próximamente" toast: no
    request, no record added, nothing else changed. *)
Theorem addItem_is_a_stub (rt : Runtime) :
  let rt' := call user addItem_onClick rt in
  toasts (world rt') = toasts (world rt) ++ [coming_soon_toast] /\
  items (world rt') = items (world rt) /\
  requests (world rt') = requests (world rt) /\
  pending rt' = pending rt /\
  render (world rt') = render (world rt).
Proof. cbn. repeat split. Qed.

(** X17: pressing "Eliminar" on a card asks about the delete of that
    card's id and of no other: once confirmed, the first request sent is
    the delete of that id on "menu_items", and the handler is left in
    flight on it. *)
Theorem delete_onClick_targets_the_card (rt : Runtime)
    (shown : list MenuItem) (item : MenuItem) :
  user confirm_question = true ->
  let rt' := call user (delete_onClick shown item) rt in
  requests (world rt') = requests (world rt) ++ [Delete "menu_items" (id item)] /\
  loading (world rt') = true /\
  length (pending rt') = S (length (pending rt)) /\
  items (world rt') = items (world rt).
Proof.
  unfold confirm_question. intros Hyes. cbn. rewrite Hyes. cbn.
  rewrite length_app. cbn. repeat split. lia.
Qed.
End Screen.

Lemma view_while_loading_witness :
  render (world (call accept fetchMenuItems (showing ∅ mockData)))
  = render (world (showing ∅ mockData)) /\
  render (world (call accept fetchMenuItems (initial ∅)))
  = LoadingScreen "Cargando elementos del menú..." /\
  render (world (settle_next accept (backend_ok [])
                   (call accept fetchMenuItems
                      (call accept fetchMenuItems (initial ∅)))))
  = Panel (EmptyState "No hay elementos en el menú. ¡Añade algunos!") false.
Proof.
  split; [| split].
  - apply (proj1 (view_while_loading accept (showing ∅ mockData))).
    discriminate.
  - apply (proj1 (proj2 (view_while_loading accept (initial ∅)))).
    reflexivity.
  - apply (proj2 (proj2 (proj2 (view_while_loading accept (initial ∅))))
             (backend_ok []) (Some []) eq_refl eq_refl eq_refl eq_refl).
Defined.

Lemma view_after_load_witness :
  render (world (run accept (backend_ok []) fetchMenuItems (initial ∅)))
  = Panel (EmptyState "No hay elementos en el menú. ¡Añade algunos!") false.
Proof.
  apply (proj2 (view_after_load accept (backend_ok []) (initial ∅))
           (Some []) eq_refl).
  reflexivity.
Defined.

Lemma modal_open_close_witness :
  call accept save_onClick
    (call accept (edit_onClick (plain_item "3" "$9.99"))
       (showing ∅ [plain_item "3" "$9.99"]))
  = showing ∅ [plain_item "3" "$9.99"].
Proof.
  apply (proj2 (proj2 (modal_open_close accept
                         (showing ∅ [plain_item "3" "$9.99"])
                         (plain_item "3" "$9.99")))
           save_onClick (or_intror eq_refl)); reflexivity.
Defined.

Lemma delete_onClick_targets_the_card_witness :
  requests (world (call accept
                     (delete_onClick [plain_item "3" "$9.99"]
                        (plain_item "3" "$9.99"))
                     (showing ∅ [plain_item "3" "$9.99"])))
  = [Delete "menu_items" "3"].
Proof.
  apply (proj1 (delete_onClick_targets_the_card accept
                  (showing ∅ [plain_item "3" "$9.99"])
                  [plain_item "3" "$9.99"] (plain_item "3" "$9.99") eq_refl)).
Defined.

(** ** Mounting and unmounting among other channels *)

Lemma filter_all {A} (P : A -> Prop) `{forall x, Decision (P x)} (l : list A) :
  Forall P l -> filter P l = l.
Proof.
  induction 1 as [| x l Hx _ IH]; [reflexivity |].
  rewrite filter_cons_True by exact Hx. f_equal. exact IH.
Qed.

(** X18: whatever channels are already open, a mount opens one more
    under a handle none of them has, and the cleanup it returns closes
    that channel only: the channels opened before, and those opened later
    by other mounts, stay open in their order. *)
Theorem cleanup_closes_its_own_channel (user : string -> bool) (rt : Runtime) :
  fresh rt ->
  let c := nextChannel rt in
  let rt1 := fst (mount user rt) in
  let opened := {| handle := c; l_topic := "menu_changes";
                   l_filter := menu_changes; callback := on_change |} in
  mount user rt = (rt1, Returned (removeChannel c)) /\
  listeners rt1 = listeners rt ++ [opened] /\
  fresh rt1 /\
  (forall rt2 later,
     listeners rt2 = listeners rt1 ++ later ->
     Forall (fun l => c < handle l) later ->
     listeners (unmount user (removeChannel c) rt2) = listeners rt ++ later).
Proof.
  intros Hfresh c rt1 opened. subst c rt1 opened. unfold fresh in *.
  split; [reflexivity |]. split; [reflexivity |]. split.
  - cbn. apply Forall_app. split.
    + eapply Forall_impl; [exact Hfresh |]. cbn. intros l Hl. lia.
    + apply Forall_singleton. cbn. lia.
  - intros rt2 later Hl Hlater. cbn. rewrite Hl. cbn.
    rewrite !filter_app, filter_cons_False, filter_nil
      by (cbn; intros Hn; apply Hn; reflexivity).
    rewrite app_nil_r. f_equal.
    + apply filter_all. eapply Forall_impl; [exact Hfresh |]. cbn. intros l Hlt. lia.
    + apply filter_all. eapply Forall_impl; [exact Hlater |]. cbn. intros l Hlt. lia.
Qed.

Lemma cleanup_closes_its_own_channel_witness :
  handle <$> listeners
    (unmount accept (removeChannel 0)
       (fst (mount accept (fst (mount accept (initial ∅))))))
  = [1].
Proof.
  pose proof (cleanup_closes_its_own_channel accept (initial ∅)
                (List.Forall_nil _)) as (_ & _ & _ & Hoff).
  transitivity
    (handle <$> (listeners (initial ∅) ++
                 [{| handle := 1; l_topic := "menu_changes";
                     l_filter := menu_changes; callback := on_change |}]));
    [| reflexivity].
  apply (f_equal (fmap handle)).
  apply (Hoff (fst (mount accept (fst (mount accept (initial ∅)))))
           [{| handle := 1; l_topic := "menu_changes";
               l_filter := menu_changes; callback := on_change |}]
           eq_refl).
  apply Forall_singleton. cbn. lia.
Defined.

Lemma signOut_touches_nothing_else_witness :
  localStorage (world (run accept (backend_down failed_to_fetch) signOut
                         (initial (<["theme" := "dark"]> dev_storage))))
    !! "theme"
  = Some "dark".
Proof.
  rewrite (proj1 (proj2 (signOut_touches_nothing_else accept
                           (backend_down failed_to_fetch)
                           (initial (<["theme" := "dark"]> dev_storage))))
             "theme").
  - vm_compute. reflexivity.
  - discriminate.
Defined.
